(** * pyasic: the ESPMiner extra configuration and its wire format

    Source: [pyasic/config/extra_config/espminer.py] (class
    [ESPMinerExtraConfig], methods [as_espminer] and [from_espminer]) and
    [tests/config_tests/test_extra_config.py].

    Python objects are embedded as an inductive type of values, a [dict] as
    an insertion-ordered association list, the pydantic record as a Rocq
    record of [option Z] fields and exceptions as an error monad.
    [as_espminer] is given twice: as a function of the instance, and as a
    computation on a store of objects in which [self] and the dictionary it
    builds are mutable objects. *)

From Stdlib Require Import ZArith String Ascii List Bool Permutation.
Import ListNotations.
Open Scope string_scope.
Open Scope Z_scope.

(** ** Python values and dictionaries *)

Module Py.

(** The JSON-compatible objects that occur in a system/info response:
    [None] (JSON null), integers and strings.  Booleans, floats, arrays and
    nested objects are not represented: a payload is a dictionary of the
    three kinds of values below. *)
Inductive value : Type :=
| VNone
| VInt (z : Z)
| VStr (s : string).

(** [v is not None] *)
Definition is_not_None (v : value) : bool :=
  match v with
  | VNone => false
  | _ => true
  end.

(** A [dict] with string keys.  Python dictionaries keep insertion order,
    so a dictionary is the list of its items in that order. *)
Definition dict : Type := list (string * value).

(** [d[k]]; [None] stands for [KeyError]. *)
Fixpoint lookup (k : string) (d : dict) : option value :=
  match d with
  | [] => None
  | (k', v) :: d' => if String.eqb k k' then Some v else lookup k d'
  end.

(** [d.get(k)]: the value at [k], and [None] (the Python object) when the
    key is absent. *)
Definition get (k : string) (d : dict) : value :=
  match lookup k d with
  | Some v => v
  | None => VNone
  end.

(** [d[k] = v]: an existing key keeps its position, a new key goes last. *)
Fixpoint setitem (k : string) (v : value) (d : dict) : dict :=
  match d with
  | [] => [(k, v)]
  | (k', v') :: d' =>
      if String.eqb k k' then (k', v) :: d' else (k', v') :: setitem k v d'
  end.

(** The dictionary without the key [k]:
    [{key: v for key, v in d.items() if key != k}].  Nothing is raised when
    [k] is not a key of [d]; the result is then [d] itself. *)
Fixpoint without (k : string) (d : dict) : dict :=
  match d with
  | [] => []
  | (k', v') :: d' =>
      if String.eqb k k' then without k d' else (k', v') :: without k d'
  end.

(** [list(d.keys())] *)
Definition keys (d : dict) : list string := map fst d.

(** Exceptions that the modelled code can raise. *)
Inductive exn : Type :=
| ValidationError
| MalformedPayloadError.

Inductive result (A : Type) : Type :=
| Ok (a : A)
| Raise (e : exn).
Arguments Ok {A} a.
Arguments Raise {A} e.

Definition bind {A B : Type} (m : result A) (k : A -> result B) : result B :=
  match m with
  | Ok a => k a
  | Raise e => Raise e
  end.

End Py.

Import Py.

Declare Scope py_scope.
Notation "x <- m ;; k" := (Py.bind m (fun x => k))
  (at level 61, m at next level, right associativity) : py_scope.
Open Scope py_scope.

(** ** Field validation of the pydantic model

    The fields of [ESPMinerExtraConfig] are declared [int | None]; the
    constructor comes from the base class [MinerExtraConfig]
    ([pyasic/config/extra_config/base.py]), a pydantic model that is not
    among the sources.  It validates every keyword argument against the
    annotation of its field. *)

Module Pydantic.

Definition digit_of (c : ascii) : option Z :=
  let n := Z.of_nat (nat_of_ascii c) in
  if (48 <=? n) && (n <=? 57) then Some (n - 48) else None.

Fixpoint digits_value (acc : Z) (s : string) : option Z :=
  match s with
  | EmptyString => Some acc
  | String c s' =>
      match digit_of c with
      | Some d => digits_value (10 * acc + d) s'
      | None => None
      end
  end.

(** Modelled from the spec: the conversion of a string by the missing
    constructor.  Only the plain decimal literal, with an optional sign, is
    represented; it is converted to its value.  The other spellings that
    the library converts (surrounding blanks, digit separators, a trailing
    [.0]) and its limit on the length of a literal are not represented:
    such strings count as rejected here, and no statement below is about
    them. *)
Definition str_as_int (s : string) : option Z :=
  match s with
  | EmptyString => None
  | String c s' =>
      if Ascii.eqb c "-" then
        match s' with
        | EmptyString => None
        | _ => option_map Z.opp (digits_value 0 s')
        end
      else if Ascii.eqb c "+" then
        match s' with
        | EmptyString => None
        | _ => digits_value 0 s'
        end
      else digits_value 0 s
  end.

(** Modelled from the spec: the validation of one keyword argument by the
    constructor of [MinerExtraConfig], which is missing.  Every field is an
    Optional<Int> (section 3; [int | None] in the source): [None] and an
    integer are kept as they are; a string is converted when it is a
    decimal literal and is rejected otherwise.  A rejected argument raises
    [ValidationError] for the whole construction, as the pydantic model that
    the tests exercise ([model_dump], keyword construction) does. *)
Definition validate_int_or_none (v : value) : result (option Z) :=
  match v with
  | VNone => Ok None
  | VInt z => Ok (Some z)
  | VStr s =>
      match str_as_int s with
      | Some z => Ok (Some z)
      | None => Raise ValidationError
      end
  end.

End Pydantic.

(** ** [class ESPMinerExtraConfig] *)

Module ESPMinerExtraConfig.

(** The seven fields, all [int | None = None]. *)
Record t : Type := mk {
  rotation : option Z;
  invertscreen : option Z;
  display_timeout : option Z;
  overheat_mode : option Z;
  overclock_enabled : option Z;
  stats_frequency : option Z;
  min_fan_speed : option Z
}.

(** [ESPMinerExtraConfig()] *)
Definition empty : t := mk None None None None None None None.

(** The constructor with its seven keyword arguments. *)
Definition init (rotation invertscreen display_timeout overheat_mode
                 overclock_enabled stats_frequency min_fan_speed : value)
  : result t :=
  r <- Pydantic.validate_int_or_none rotation ;;
  i <- Pydantic.validate_int_or_none invertscreen ;;
  d <- Pydantic.validate_int_or_none display_timeout ;;
  oh <- Pydantic.validate_int_or_none overheat_mode ;;
  oc <- Pydantic.validate_int_or_none overclock_enabled ;;
  s <- Pydantic.validate_int_or_none stats_frequency ;;
  m <- Pydantic.validate_int_or_none min_fan_speed ;;
  Ok (mk r i d oh oc s m).

(** A field read by name; [None] for a name that is not a field. *)
Definition field (self : t) (name : string) : option Z :=
  if String.eqb name "rotation" then rotation self
  else if String.eqb name "invertscreen" then invertscreen self
  else if String.eqb name "display_timeout" then display_timeout self
  else if String.eqb name "overheat_mode" then overheat_mode self
  else if String.eqb name "overclock_enabled" then overclock_enabled self
  else if String.eqb name "stats_frequency" then stats_frequency self
  else if String.eqb name "min_fan_speed" then min_fan_speed self
  else None.

Definition to_value (o : option Z) : value :=
  match o with
  | Some z => VInt z
  | None => VNone
  end.

(** [getattr(self, field_name, None)] *)
Definition getattr (self : t) (field_name : string) : value :=
  to_value (field self field_name).

(** The literal [field_mapping] of [as_espminer], in the order it is
    written, which is the order [field_mapping.items()] yields. *)
Definition field_mapping : list (string * string) :=
  [ ("rotation", "rotation");
    ("invertscreen", "invertscreen");
    ("display_timeout", "displayTimeout");
    ("overheat_mode", "overheat_mode");
    ("overclock_enabled", "overclockEnabled");
    ("stats_frequency", "statsFrequency");
    ("min_fan_speed", "minFanSpeed") ].

(** Computations of a method on [self]: the instance is threaded through,
    so that a write to it would show in the final state. *)
Definition St (A : Type) : Type := t -> A * t.

Definition ret {A : Type} (a : A) : St A := fun self => (a, self).

Definition seq {A B : Type} (m : St A) (k : A -> St B) : St B :=
  fun self => let (a, self') := m self in k a self'.

Definition getattr_st (field_name : string) : St value :=
  fun self => (getattr self field_name, self).

(** The loop [for field_name, api_name in field_mapping.items()] with the
    local [result] as accumulator. *)
Fixpoint for_items (items : list (string * string)) (result : dict)
  : St dict :=
  match items with
  | [] => ret result
  | (field_name, api_name) :: items' =>
      seq (getattr_st field_name) (fun value =>
        for_items items'
          (if is_not_None value then setitem api_name value result
           else result))
  end.

(** [as_espminer] with the final state of [self]. *)
Definition as_espminer_run : St dict := for_items field_mapping [].

(** [self.as_espminer()] *)
Definition as_espminer (self : t) : dict := fst (as_espminer_run self).

(** [ESPMinerExtraConfig.from_espminer(web_system_info)] *)
Definition from_espminer (web_system_info : dict) : result t :=
  init (get "rotation" web_system_info)
       (get "invertscreen" web_system_info)
       (get "displayTimeout" web_system_info)
       (get "overheat_mode" web_system_info)
       (get "overclockEnabled" web_system_info)
       (get "statsFrequency" web_system_info)
       (get "minFanSpeed" web_system_info).

(** The wire keys, in declaration order. *)
Definition wire_keys : list string := map snd field_mapping.

End ESPMinerExtraConfig.

Import ESPMinerExtraConfig.

(** ** The composition [MinerConfig.from_espminer]

    [pyasic/config/__init__.py] is not among the sources; the composition is
    taken from section 4.4 of the specification and from the scenarios of
    [TestMinerConfigWithExtraConfig]. *)

Module MinerConfig.

Section Composition.

(** The pool sequence and the normalized fan mode belong to other
    subsystems; their types and parsers are parameters.  A parser
    answers [None] on a payload of the wrong shape. *)
Variables PoolConfig FanModeConfig : Type.
Variable PoolConfig_from_espminer : dict -> option PoolConfig.
Variable FanModeConfig_of_indicator : value -> dict -> option FanModeConfig.

(** Modelled from the spec: the CanonicalConfig of section 3 (the class
    [MinerConfig], which is missing): pools, fan policy and the optional
    Extra-Config slot. *)
Record t : Type := mk {
  pools : PoolConfig;
  fan_mode : FanModeConfig;
  extra_config : option ESPMinerExtraConfig.t
}.

(** Modelled from the spec: base-field parsing answers a
    [MalformedPayloadError] for a payload of the wrong shape. *)
Definition parse_pools (web_system_info : dict) : result PoolConfig :=
  match PoolConfig_from_espminer web_system_info with
  | Some pools => Ok pools
  | None => Raise MalformedPayloadError
  end.

(** Modelled from the spec: [FanModeConfig.from_espminer], which is
    missing, requires the fan-mode indicator [autofanspeed] to be
    present; otherwise the fan policy parse fails with a data error. *)
Definition parse_fan_mode (web_system_info : dict) : result FanModeConfig :=
  match lookup "autofanspeed" web_system_info with
  | None => Raise MalformedPayloadError
  | Some indicator =>
      match FanModeConfig_of_indicator indicator web_system_info with
      | Some fan => Ok fan
      | None => Raise MalformedPayloadError
      end
  end.

(** Modelled from the spec: the policy of [MinerConfig.from_espminer],
    which is missing, on the Extra-Config slot: when every recognized
    extra field is unset the slot is [None], not an empty instance. *)
Definition extra_or_none (extra : ESPMinerExtraConfig.t)
  : option ESPMinerExtraConfig.t :=
  match extra with
  | ESPMinerExtraConfig.mk None None None None None None None => None
  | _ => Some extra
  end.

(** Modelled from the spec: inside [MinerConfig.from_espminer], which is
    missing, Extra-Config parsing is field-by-field best-effort (sections
    4.4 and 7): a value that its field rejects leaves that field unset and
    aborts nothing. *)
Definition best_effort_field (v : value) : option Z :=
  match Pydantic.validate_int_or_none v with
  | Ok o => o
  | Raise _ => None
  end.

(** Modelled from the spec: the Extra-Config that [MinerConfig.from_espminer],
    which is missing, attempts to build from the payload: the instance that
    [ESPMinerExtraConfig.from_espminer] returns and, when that constructor
    rejects the payload, the instance of the fields it accepts, the others
    unset. *)
Definition build_extra_config (web_system_info : dict) : ESPMinerExtraConfig.t :=
  match ESPMinerExtraConfig.from_espminer web_system_info with
  | Ok extra => extra
  | Raise _ =>
      ESPMinerExtraConfig.mk
        (best_effort_field (get "rotation" web_system_info))
        (best_effort_field (get "invertscreen" web_system_info))
        (best_effort_field (get "displayTimeout" web_system_info))
        (best_effort_field (get "overheat_mode" web_system_info))
        (best_effort_field (get "overclockEnabled" web_system_info))
        (best_effort_field (get "statsFrequency" web_system_info))
        (best_effort_field (get "minFanSpeed" web_system_info))
  end.

(** Modelled from the spec: [MinerConfig.from_espminer], which is
    missing: first the base canonical fields (pools, fan policy), whose
    errors propagate; then the Extra-Config from the same payload, which
    raises nothing; then the policy above. *)
Definition from_espminer (web_system_info : dict) : result t :=
  pools <- parse_pools web_system_info ;;
  fan <- parse_fan_mode web_system_info ;;
  Ok (mk pools fan (extra_or_none (build_extra_config web_system_info))).

End Composition.

Arguments mk {PoolConfig FanModeConfig} pools fan_mode extra_config.
Arguments pools {PoolConfig FanModeConfig} _.
Arguments fan_mode {PoolConfig FanModeConfig} _.
Arguments extra_config {PoolConfig FanModeConfig} _.
Arguments from_espminer {PoolConfig FanModeConfig} _ _ _.
Arguments parse_pools {PoolConfig} _ _.
Arguments parse_fan_mode {FanModeConfig} _ _.

End MinerConfig.

(** ** The payload shape of the test-suite

    The base fields as the scenarios of [TestMinerConfigWithExtraConfig]
    spell them: one stratum endpoint and the integer fan-mode indicator. *)

Module Scenario.

Record pool : Type := mk_pool {
  url : value;
  port : value;
  user : value;
  password : value
}.

Definition pools_of (web_system_info : dict) : option (list pool) :=
  Some [ mk_pool (get "stratumURL" web_system_info)
                 (get "stratumPort" web_system_info)
                 (get "stratumUser" web_system_info)
                 (get "stratumPassword" web_system_info) ].

Definition fan_of (indicator : value) (web_system_info : dict) : option Z :=
  match indicator with
  | VInt z => Some z
  | _ => None
  end.

Definition from_espminer (web_system_info : dict)
  : result (MinerConfig.t (list pool) Z) :=
  MinerConfig.from_espminer pools_of fan_of web_system_info.

Definition base : dict :=
  [ ("stratumURL", VStr "stratum.test.io");
    ("stratumPort", VInt 3333);
    ("stratumUser", VStr "test.user");
    ("stratumPassword", VStr "x");
    ("autofanspeed", VInt 1) ].

Definition base_pools : list pool :=
  [ mk_pool (VStr "stratum.test.io") (VInt 3333) (VStr "test.user") (VStr "x") ].

End Scenario.

(** ** Predicates on payloads *)

(** The values that the annotation [int | None] admits as they are. *)
Definition int_or_none (v : value) : bool :=
  match v with
  | VNone | VInt _ => true
  | VStr _ => false
  end.

(** Every recognized wire key of the payload is absent, null or an
    integer. *)
Definition well_typed (p : dict) : bool :=
  forallb (fun k => int_or_none (get k p)) wire_keys.

(** No recognized wire key carries a non-null value. *)
Definition no_extra_fields (p : dict) : bool :=
  forallb (fun k => negb (is_not_None (get k p))) wire_keys.

(** The Field Mapper's inverse lookup: the canonical name of a wire key. *)
Fixpoint field_of_key (k : string) (m : list (string * string)) : option string :=
  match m with
  | [] => None
  | (f, a) :: m' => if String.eqb k a then Some f else field_of_key k m'
  end.

(** The mapping table as section 6 of the specification words it. *)
Definition spec_field_table : list (string * string) :=
  [ ("rotation", "rotation");
    ("invertscreen", "invertscreen");
    ("display_timeout", "displayTimeout");
    ("overheat_mode", "overheat_mode");
    ("overclock_enabled", "overclockEnabled");
    ("stats_frequency", "statsFrequency");
    ("min_fan_speed", "minFanSpeed") ].

(** The instance [x] with the field of wire key [k] replaced by [o]; an
    unrecognized key leaves [x] as it is. *)
Definition with_key (x : ESPMinerExtraConfig.t) (k : string) (o : option Z)
  : ESPMinerExtraConfig.t :=
  ESPMinerExtraConfig.mk
    (if String.eqb "rotation" k then o else rotation x)
    (if String.eqb "invertscreen" k then o else invertscreen x)
    (if String.eqb "displayTimeout" k then o else display_timeout x)
    (if String.eqb "overheat_mode" k then o else overheat_mode x)
    (if String.eqb "overclockEnabled" k then o else overclock_enabled x)
    (if String.eqb "statsFrequency" k then o else stats_frequency x)
    (if String.eqb "minFanSpeed" k then o else min_fan_speed x).

(** The number of fields of [x] that are set. *)
Definition set_fields (x : ESPMinerExtraConfig.t) : nat :=
  length (filter (fun fa => is_not_None (getattr x (fst fa))) field_mapping).

(** ** [tests/local_tests/test_bitaxe_local.py]

    The part of [test_send_config_with_extra_config] that prepares the
    configuration to send. *)

Module BitAxeLocal.

(** [extra_config.invertscreen = v] *)
Definition set_invertscreen (self : ESPMinerExtraConfig.t) (v : option Z)
  : ESPMinerExtraConfig.t :=
  ESPMinerExtraConfig.mk (rotation self) v (display_timeout self)
    (overheat_mode self) (overclock_enabled self) (stats_frequency self)
    (min_fan_speed self).

(** [if current_cfg.extra_config is None:
       current_cfg.extra_config = ESPMinerExtraConfig()] *)
Definition ensure_extra_config (extra_config : option ESPMinerExtraConfig.t)
  : ESPMinerExtraConfig.t :=
  match extra_config with
  | None => empty
  | Some extra => extra
  end.

(** The toggle of [invertscreen]:
    [(0 if original_invertscreen == 1 else 1)
     if original_invertscreen is not None else 1] *)
Definition toggle_invertscreen (extra : ESPMinerExtraConfig.t)
  : ESPMinerExtraConfig.t :=
  let original_invertscreen := invertscreen extra in
  set_invertscreen extra
    (match original_invertscreen with
     | Some o => if o =? 1 then Some 0 else Some 1
     | None => Some 1
     end).

End BitAxeLocal.

(** ** [tests/local_tests/test_espminer_api_fields.py]

    The probing loop of [main] and its summary.  The PATCH request of
    [test_field] is an action on the device: it takes the state of the
    device and returns the [(success, message)] pair with the new state. *)

Module ApiFields.

(** The literal [test_fields] of [main]. *)
Definition test_fields : dict :=
  [ ("rotation", VInt 0);
    ("invertscreen", VInt 0);
    ("displayTimeout", VInt 1);
    ("overheat_mode", VInt 0);
    ("overclockEnabled", VInt 0);
    ("statsFrequency", VInt 0);
    ("minFanSpeed", VInt 25);
    ("networkDifficulty", VInt 146472570619930) ].

(** The dictionary [results]: field name to [(success, message)]. *)
Definition results_t : Type := list (string * (bool * string)).

(** [results[field_name] = (success, message)] *)
Fixpoint results_set (k : string) (r : bool * string) (results : results_t)
  : results_t :=
  match results with
  | [] => [(k, r)]
  | (k', r') :: results' =>
      if String.eqb k k' then (k', r) :: results'
      else (k', r') :: results_set k r results'
  end.

(** [[name for name, (success, _) in results.items() if success]] *)
Definition accepted (results : results_t) : list string :=
  map fst (filter (fun nr => fst (snd nr)) results).

(** [[name for name, (success, _) in results.items() if not success]] *)
Definition rejected (results : results_t) : list string :=
  map fst (filter (fun nr => negb (fst (snd nr))) results).

Section Main.

Variable Device : Type.
Variable test_field : Device -> string -> value -> (bool * string) * Device.

(** [for field_name, test_value in test_fields.items(): ...] *)
Fixpoint probe_all (fields : dict) (results : results_t) (dev : Device)
  : results_t * Device :=
  match fields with
  | [] => (results, dev)
  | (field_name, test_value) :: fields' =>
      let (r, dev') := test_field dev field_name test_value in
      probe_all fields' (results_set field_name r results) dev'
  end.

End Main.

Arguments probe_all {Device} _ _ _ _.

(** A device that accepts every field but [networkDifficulty], which is
    read-only, and counts the requests it has served. *)
Definition counting_device (served : nat) (field_name : string) (v : value)
  : (bool * string) * nat :=
  ((negb (String.eqb field_name "networkDifficulty"), "response"), S served).

End ApiFields.

(** ** [as_espminer] on a store of objects

    [self] and the dictionary [result] are objects of one store, named by
    their addresses.  An assignment [result[api_name] = value] writes to
    the store, and a write to [self] would show in it as well. *)

Module Store.

Inductive object : Type :=
| OInstance (x : ESPMinerExtraConfig.t)
| ODict (d : dict).

(** The store is the sequence of the objects allocated so far; an address
    is a position in it. *)
Definition store : Type := list object.
Definition addr : Type := nat.

(** A computation on the store; [None] when an address does not hold an
    object of the class that the operation expects. *)
Definition M (A : Type) : Type := store -> option (A * store).

Definition ret {A : Type} (a : A) : M A := fun s => Some (a, s).

Definition bind {A B : Type} (m : M A) (k : A -> M B) : M B :=
  fun s => match m s with
           | Some (a, s') => k a s'
           | None => None
           end.

(** The object at [a] replaced by [o]. *)
Fixpoint update (s : store) (a : addr) (o : object) : store :=
  match s, a with
  | [], _ => []
  | _ :: s', O => o :: s'
  | o' :: s', S a' => o' :: update s' a' o
  end.

(** [result = {}]: a new dictionary at a new address. *)
Definition new_dict : M addr :=
  fun s => Some (length s, (s ++ [ODict []])%list).

(** [getattr(self, field_name, None)] *)
Definition getattr_at (self : addr) (field_name : string) : M value :=
  fun s => match nth_error s self with
           | Some (OInstance x) => Some (getattr x field_name, s)
           | _ => None
           end.

(** [result[api_name] = value] *)
Definition setitem_at (result : addr) (api_name : string) (v : value) : M unit :=
  fun s => match nth_error s result with
           | Some (ODict d) => Some (tt, update s result (ODict (setitem api_name v d)))
           | _ => None
           end.

(** The loop over [field_mapping.items()]. *)
Fixpoint for_items_at (self result : addr) (items : list (string * string))
  : M unit :=
  match items with
  | [] => ret tt
  | (field_name, api_name) :: items' =>
      bind (getattr_at self field_name) (fun value =>
      bind (if is_not_None value then setitem_at result api_name value
            else ret tt) (fun _ =>
      for_items_at self result items'))
  end.

(** [self.as_espminer()]: the address of the dictionary it returns. *)
Definition as_espminer_at (self : addr) : M addr :=
  bind new_dict (fun result =>
  bind (for_items_at self result field_mapping) (fun _ =>
  ret result)).

End Store.

(** ** Proof automation *)

Ltac split_fields x :=
  destruct x as [[?|] [?|] [?|] [?|] [?|] [?|] [?|]].

Ltac in_mapping H :=
  simpl in H;
  repeat (destruct H as [H|H]; [injection H as <- <-|]);
  [..|contradiction].

(** The scenarios of [tests/config_tests/test_extra_config.py]. *)

Example test_as_espminer_excludes_none :
  as_espminer (mk (Some 90) None (Some 5) None None None None)
  = [("rotation", VInt 90); ("displayTimeout", VInt 5)].
Proof. reflexivity. Qed.

Example test_as_espminer_all_none : as_espminer empty = [].
Proof. reflexivity. Qed.

Example test_from_espminer_with_partial_fields :
  from_espminer [("rotation", VInt 180); ("invertscreen", VInt 0)]
  = Ok (mk (Some 180) (Some 0) None None None None None).
Proof. reflexivity. Qed.

Example test_from_espminer_empty : from_espminer [] = Ok empty.
Proof. reflexivity. Qed.

Example from_espminer_numeric_string :
  from_espminer [("rotation", VStr "90")]
  = Ok (mk (Some 90) None None None None None None).
Proof. reflexivity. Qed.

Example from_espminer_unparsable :
  from_espminer [("rotation", VStr "auto")] = Raise ValidationError.
Proof. reflexivity. Qed.

Example test_from_espminer_without_extra_config_fields :
  Scenario.from_espminer Scenario.base
  = Ok (MinerConfig.mk Scenario.base_pools 1 None).
Proof. reflexivity. Qed.

Example from_espminer_with_rejected_extra_field :
  Scenario.from_espminer
    (Scenario.base ++ [("rotation", VInt 90); ("invertscreen", VStr "on")])%list
  = Ok (MinerConfig.mk Scenario.base_pools 1
          (Some (ESPMinerExtraConfig.mk (Some 90) None None None None None None))).
Proof. reflexivity. Qed.

Example test_from_espminer_with_partial_extra_config :
  Scenario.from_espminer
    (Scenario.base ++ [("rotation", VInt 180); ("invertscreen", VInt 0)])%list
  = Ok (MinerConfig.mk Scenario.base_pools 1
          (Some (ESPMinerExtraConfig.mk (Some 180) (Some 0) None None None None None))).
Proof. reflexivity. Qed.

(** ** Dictionaries *)

Lemma lookup_setitem (k k' : string) (v : value) (d : dict) :
  lookup k' (setitem k v d) = if String.eqb k' k then Some v else lookup k' d.
Proof.
  induction d as [|[k0 v0] d IH]; simpl.
  - reflexivity.
  - destruct (String.eqb_spec k k0) as [->|Hk]; simpl.
    + destruct (String.eqb k' k0); reflexivity.
    + destruct (String.eqb_spec k' k0) as [->|Hk'].
      * apply String.eqb_neq in Hk. rewrite String.eqb_sym, Hk. reflexivity.
      * exact IH.
Qed.

Lemma lookup_without (k k' : string) (d : dict) :
  lookup k' (without k d) = if String.eqb k' k then None else lookup k' d.
Proof.
  induction d as [|[k0 v0] d IH]; simpl.
  - destruct (String.eqb k' k); reflexivity.
  - destruct (String.eqb_spec k k0) as [->|Hk]; simpl.
    + rewrite IH. destruct (String.eqb k' k0); reflexivity.
    + rewrite IH. destruct (String.eqb_spec k' k0) as [->|Hk'].
      * apply String.eqb_neq in Hk. rewrite String.eqb_sym, Hk. reflexivity.
      * reflexivity.
Qed.

Lemma get_setitem_other (k k' : string) (v : value) (d : dict) :
  k' <> k -> get k' (setitem k v d) = get k' d.
Proof.
  intros H. unfold get. rewrite lookup_setitem.
  apply String.eqb_neq in H. rewrite H. reflexivity.
Qed.

Lemma get_without_null (k k' : string) (d : dict) :
  lookup k d = Some VNone -> get k' (without k d) = get k' d.
Proof.
  intros H. unfold get. rewrite lookup_without.
  destruct (String.eqb_spec k' k) as [->|Hk]; [rewrite H|]; reflexivity.
Qed.

Lemma lookup_In_keys (k : string) (d : dict) :
  In k (keys d) <-> exists v, lookup k d = Some v.
Proof.
  induction d as [|[k0 v0] d IH]; simpl.
  - split; [tauto | intros [v Hv]; discriminate].
  - destruct (String.eqb_spec k k0) as [->|Hk].
    + split; [eauto | auto].
    + rewrite IH. split; [intros [H|H]; [congruence | exact H] | auto].
Qed.

(** ** The constructor and the seven [get]s *)

Lemma from_espminer_ext (p q : dict) :
  (forall k, In k wire_keys -> get k p = get k q) ->
  from_espminer p = from_espminer q.
Proof.
  intros H. unfold from_espminer.
  rewrite !(fun k Hk => H k Hk); simpl; tauto.
Qed.

Lemma from_espminer_fields (p : dict) (x : ESPMinerExtraConfig.t) :
  from_espminer p = Ok x ->
  forall f a, In (f, a) field_mapping ->
    Pydantic.validate_int_or_none (get a p) = Ok (field x f).
Proof.
  unfold from_espminer, init. intros H f a Hin.
  destruct (Pydantic.validate_int_or_none (get "rotation" p)) eqn:E1; [|discriminate].
  destruct (Pydantic.validate_int_or_none (get "invertscreen" p)) eqn:E2; [|discriminate].
  destruct (Pydantic.validate_int_or_none (get "displayTimeout" p)) eqn:E3; [|discriminate].
  destruct (Pydantic.validate_int_or_none (get "overheat_mode" p)) eqn:E4; [|discriminate].
  destruct (Pydantic.validate_int_or_none (get "overclockEnabled" p)) eqn:E5; [|discriminate].
  destruct (Pydantic.validate_int_or_none (get "statsFrequency" p)) eqn:E6; [|discriminate].
  destruct (Pydantic.validate_int_or_none (get "minFanSpeed" p)) eqn:E7; [|discriminate].
  simpl in H. injection H as <-.
  in_mapping Hin; assumption.
Qed.

Lemma validate_set_iff (v : value) (o : option Z) :
  Pydantic.validate_int_or_none v = Ok o -> (o = None <-> v = VNone).
Proof.
  destruct v as [|z|s]; simpl.
  - intros [= <-]. tauto.
  - intros [= <-]. split; discriminate.
  - destruct (Pydantic.str_as_int s); [|discriminate].
    intros [= <-]. split; discriminate.
Qed.

Lemma validate_well_typed (v : value) :
  int_or_none v = true ->
  exists o, Pydantic.validate_int_or_none v = Ok o /\ to_value o = v.
Proof.
  destruct v as [|z|s]; simpl; intros H.
  - exists None. auto.
  - exists (Some z). auto.
  - discriminate.
Qed.

(** A payload whose recognized keys are absent, null or integers is
    accepted, and every field is the object that [get] returns. *)
Lemma from_espminer_well_typed (p : dict) :
  well_typed p = true ->
  exists x, from_espminer p = Ok x /\
    forall f a, In (f, a) field_mapping -> getattr x f = get a p.
Proof.
  unfold well_typed. simpl. rewrite !andb_true_iff.
  intros (H1 & H2 & H3 & H4 & H5 & H6 & H7 & _).
  apply validate_well_typed in H1, H2, H3, H4, H5, H6, H7.
  destruct H1 as (o1 & V1 & T1), H2 as (o2 & V2 & T2), H3 as (o3 & V3 & T3),
    H4 as (o4 & V4 & T4), H5 as (o5 & V5 & T5), H6 as (o6 & V6 & T6),
    H7 as (o7 & V7 & T7).
  exists (ESPMinerExtraConfig.mk o1 o2 o3 o4 o5 o6 o7). split.
  - unfold from_espminer, init. rewrite V1, V2, V3, V4, V5, V6, V7. reflexivity.
  - intros f a Hin. unfold getattr. in_mapping Hin; simpl; assumption.
Qed.

(** ** The loop of [as_espminer] *)

(** The dictionary that the loop builds, as a comprehension over the
    mapping table. *)
Lemma as_espminer_items (x : ESPMinerExtraConfig.t) :
  as_espminer x
  = flat_map (fun fa => match field x (fst fa) with
                        | Some z => [(snd fa, VInt z)]
                        | None => []
                        end) field_mapping.
Proof. split_fields x; reflexivity. Qed.

Lemma lookup_as_espminer (x : ESPMinerExtraConfig.t) (k : string) :
  lookup k (as_espminer x)
  = match field_of_key k field_mapping with
    | Some f => option_map VInt (field x f)
    | None => None
    end.
Proof.
  destruct (String.eqb_spec k "rotation") as [->|N1];
    [split_fields x; reflexivity|].
  destruct (String.eqb_spec k "invertscreen") as [->|N2];
    [split_fields x; reflexivity|].
  destruct (String.eqb_spec k "displayTimeout") as [->|N3];
    [split_fields x; reflexivity|].
  destruct (String.eqb_spec k "overheat_mode") as [->|N4];
    [split_fields x; reflexivity|].
  destruct (String.eqb_spec k "overclockEnabled") as [->|N5];
    [split_fields x; reflexivity|].
  destruct (String.eqb_spec k "statsFrequency") as [->|N6];
    [split_fields x; reflexivity|].
  destruct (String.eqb_spec k "minFanSpeed") as [->|N7];
    [split_fields x; reflexivity|].
  apply String.eqb_neq in N1, N2, N3, N4, N5, N6, N7.
  rewrite as_espminer_items.
  split_fields x; simpl; rewrite ?N1, ?N2, ?N3, ?N4, ?N5, ?N6, ?N7; reflexivity.
Qed.

Lemma field_of_key_In (k f : string) :
  field_of_key k field_mapping = Some f <-> In (f, k) field_mapping.
Proof.
  split.
  - simpl.
    repeat match goal with
    | |- context [String.eqb k ?s] =>
        destruct (String.eqb_spec k s) as [->|?];
        [intros [= <-]; simpl; tauto|]
    end.
    discriminate.
  - intros H. in_mapping H; reflexivity.
Qed.

(** ** The Extra-Config and its wire format *)

(** C1. Round-trip law: for every Extra-Config [x], whichever of its seven
    fields are set, [from_espminer (as_espminer x)] returns [x] itself,
    field for field. *)
Theorem from_espminer_as_espminer (x : ESPMinerExtraConfig.t) :
  from_espminer (as_espminer x) = Ok x.
Proof. split_fields x; reflexivity. Qed.

Lemma NoDup_keys_as_espminer (x : ESPMinerExtraConfig.t) :
  NoDup (keys (as_espminer x)).
Proof.
  split_fields x; unfold keys; simpl;
    repeat (constructor; [simpl; intuition discriminate|]); constructor.
Qed.

(** C2. The dictionary returned by [as_espminer] has a key exactly for each
    field that is set: a key belongs to the result if and only if it is the
    wire key of a field whose value is not [None]; every key of the result
    is one of the seven wire keys of the table, no key occurs twice, and no
    value of the result is [None]. *)
Theorem as_espminer_keys_exactly_set_fields (x : ESPMinerExtraConfig.t) (k : string) :
  (In k (keys (as_espminer x)) <->
     exists f, In (f, k) field_mapping /\ getattr x f <> VNone)
  /\ (In k (keys (as_espminer x)) -> In k wire_keys)
  /\ lookup k (as_espminer x) <> Some VNone
  /\ NoDup (keys (as_espminer x)).
Proof.
  assert (Hiff : In k (keys (as_espminer x)) <->
                 exists f, In (f, k) field_mapping /\ getattr x f <> VNone).
  { rewrite lookup_In_keys, lookup_as_espminer. unfold getattr. split.
    - intros [v Hv].
      destruct (field_of_key k field_mapping) as [f|] eqn:Hf; [|discriminate].
      exists f. split; [apply field_of_key_In; exact Hf|].
      destruct (field x f); [discriminate | discriminate].
    - intros (f & Hin & Hset). apply field_of_key_In in Hin. rewrite Hin.
      destruct (field x f) as [z|]; [exists (VInt z); reflexivity|].
      exfalso. apply Hset. reflexivity. }
  repeat split.
  - apply Hiff.
  - apply Hiff.
  - intros Hk. apply Hiff in Hk. destruct Hk as (f & Hin & _).
    apply (in_map snd) in Hin. exact Hin.
  - rewrite lookup_as_espminer.
    destruct (field_of_key k field_mapping) as [f|]; [|discriminate].
    destruct (field x f); discriminate.
  - apply NoDup_keys_as_espminer.
Qed.

(** C5. The table that [as_espminer] walks is exactly the seven pairs of the
    specification; no canonical name and no wire key occurs twice in it
    (the mapping is one-to-one); [as_espminer] writes the field [f] under
    the wire key paired with it, and [from_espminer] fills the field [f]
    from the object found under that same wire key. *)
Theorem field_mapping_exact_and_bijective :
  field_mapping = spec_field_table
  /\ NoDup (map fst field_mapping)
  /\ NoDup (map snd field_mapping)
  /\ (forall f a f' a', In (f, a) field_mapping -> In (f', a') field_mapping ->
        (f = f' <-> a = a'))
  /\ (forall x f a, In (f, a) field_mapping ->
        lookup a (as_espminer x) = option_map VInt (field x f))
  /\ (forall p x f a, from_espminer p = Ok x -> In (f, a) field_mapping ->
        Pydantic.validate_int_or_none (get a p) = Ok (field x f)).
Proof.
  split; [reflexivity|].
  split; [simpl; repeat (constructor; [simpl; intuition discriminate|]); constructor|].
  split; [simpl; repeat (constructor; [simpl; intuition discriminate|]); constructor|].
  split.
  { intros f a f' a' H H'. in_mapping H; in_mapping H';
      split; intros E; try reflexivity; discriminate E. }
  split.
  - intros x f a Hin. rewrite lookup_as_espminer.
    apply field_of_key_In in Hin. rewrite Hin. reflexivity.
  - intros p x f a Hp Hin. exact (from_espminer_fields p x Hp f a Hin).
Qed.

Lemma nth_error_update_eq (s : Store.store) (a : Store.addr) (o o' : Store.object) :
  nth_error s a = Some o' -> nth_error (Store.update s a o) a = Some o.
Proof.
  revert a. induction s as [|o0 s IH]; intros [|a]; simpl; intros H;
    try discriminate H; [reflexivity | exact (IH a H)].
Qed.

Lemma nth_error_update_ne (s : Store.store) (a b : Store.addr) (o : Store.object) :
  a <> b -> nth_error (Store.update s a o) b = nth_error s b.
Proof.
  revert a b. induction s as [|o0 s IH]; intros [|a] [|b] H; simpl;
    try reflexivity; [contradiction H; reflexivity | apply IH; congruence].
Qed.

Lemma update_update (s : Store.store) (a : Store.addr) (o1 o2 : Store.object) :
  Store.update (Store.update s a o1) a o2 = Store.update s a o2.
Proof.
  revert a. induction s as [|o0 s IH]; intros [|a]; simpl;
    try reflexivity. rewrite IH. reflexivity.
Qed.

Lemma update_same (s : Store.store) (a : Store.addr) (o : Store.object) :
  nth_error s a = Some o -> Store.update s a o = s.
Proof.
  revert a. induction s as [|o0 s IH]; intros [|a]; simpl; intros H;
    try reflexivity.
  - congruence.
  - rewrite (IH a H). reflexivity.
Qed.

Lemma update_last (s : Store.store) (o o' : Store.object) :
  Store.update (s ++ [o])%list (length s) o' = (s ++ [o'])%list.
Proof.
  induction s as [|o0 s IH]; simpl; [reflexivity|]. rewrite IH. reflexivity.
Qed.

(** The loop on the store writes to [result] what the loop on the instance
    accumulates, and to nothing else. *)
Lemma for_items_at_result (items : list (string * string)) (s : Store.store)
  (self result : Store.addr) (x : ESPMinerExtraConfig.t) (d : dict) :
  nth_error s self = Some (Store.OInstance x) ->
  nth_error s result = Some (Store.ODict d) ->
  Store.for_items_at self result items s
  = Some (tt, Store.update s result (Store.ODict (fst (for_items items d x)))).
Proof.
  revert s d. induction items as [|[f a] items IH]; intros s d Hself Hres.
  - simpl. unfold Store.ret, ret. simpl. rewrite (update_same s result _ Hres).
    reflexivity.
  - simpl. unfold Store.bind at 1. unfold Store.getattr_at. rewrite Hself.
    unfold seq, getattr_st. unfold Store.bind at 1.
    destruct (is_not_None (getattr x f)).
    + unfold Store.setitem_at. rewrite Hres.
      assert (Hne : result <> self) by (intros ->; congruence).
      rewrite (IH _ (setitem a (getattr x f) d)).
      * rewrite update_update. reflexivity.
      * rewrite (nth_error_update_ne s result self _ Hne). exact Hself.
      * exact (nth_error_update_eq s result _ _ Hres).
    + unfold Store.ret at 1. exact (IH s d Hself Hres).
Qed.

(** C8. [as_espminer] is deterministic and only reads the instance.  Run on
    any store in which [self] holds the instance [x], it returns a new
    dictionary and leaves every object that existed before, [self]
    included, as it was: the store afterwards is the store before with the
    one new dictionary appended.  The contents of that dictionary are a
    function of the fields of [x] alone, so two calls on equal instances,
    in whatever stores and at whatever addresses, return equal dictionaries;
    and its keys come in the declaration order of the mapping table (the
    wire keys of the set fields, in table order). *)
Theorem as_espminer_deterministic_read_only (s : Store.store)
  (self : Store.addr) (x : ESPMinerExtraConfig.t) :
  nth_error s self = Some (Store.OInstance x) ->
  Store.as_espminer_at self s
  = Some (length s, (s ++ [Store.ODict (as_espminer x)])%list)
  /\ (forall s' self', nth_error s' self' = Some (Store.OInstance x) ->
        exists result result' t t',
          Store.as_espminer_at self s = Some (result, t)
          /\ Store.as_espminer_at self' s' = Some (result', t')
          /\ nth_error t self = Some (Store.OInstance x)
          /\ nth_error t' self' = Some (Store.OInstance x)
          /\ nth_error t result = nth_error t' result')
  /\ keys (as_espminer x)
     = map snd (filter (fun fa => is_not_None (getattr x (fst fa))) field_mapping).
Proof.
  assert (Hrun : forall s0 self0,
            nth_error s0 self0 = Some (Store.OInstance x) ->
            Store.as_espminer_at self0 s0
            = Some (length s0, (s0 ++ [Store.ODict (as_espminer x)])%list)).
  { intros s0 self0 H0. unfold Store.as_espminer_at, Store.new_dict.
    unfold Store.bind at 1. unfold Store.bind at 1.
    assert (Hlt : (self0 < length s0)%nat)
      by (apply nth_error_Some; congruence).
    rewrite (for_items_at_result field_mapping _ self0 (length s0) x []).
    - rewrite update_last. reflexivity.
    - rewrite nth_error_app1 by exact Hlt. exact H0.
    - rewrite nth_error_app2, Nat.sub_diag by apply Nat.le_refl. reflexivity. }
  assert (Hkeep : forall s0 self0,
            nth_error s0 self0 = Some (Store.OInstance x) ->
            nth_error (s0 ++ [Store.ODict (as_espminer x)])%list self0
            = Some (Store.OInstance x)).
  { intros s0 self0 H0. rewrite nth_error_app1; [exact H0|].
    apply nth_error_Some. congruence. }
  assert (Hnew : forall s0 : Store.store,
            nth_error (s0 ++ [Store.ODict (as_espminer x)])%list (length s0)
            = Some (Store.ODict (as_espminer x))).
  { intros s0. rewrite nth_error_app2, Nat.sub_diag by apply Nat.le_refl.
    reflexivity. }
  intros Hself. split; [exact (Hrun s self Hself)|]. split.
  - intros s' self' Hself'.
    exists (length s), (length s'), (s ++ [Store.ODict (as_espminer x)])%list,
      (s' ++ [Store.ODict (as_espminer x)])%list.
    split; [exact (Hrun s self Hself)|].
    split; [exact (Hrun s' self' Hself')|].
    split; [exact (Hkeep s self Hself)|].
    split; [exact (Hkeep s' self' Hself')|].
    rewrite !Hnew. reflexivity.
  - split_fields x; reflexivity.
Qed.

Lemma as_espminer_deterministic_read_only_witness :
  nth_error [Store.ODict [("hostname", VStr "bitaxe")];
             Store.OInstance (ESPMinerExtraConfig.mk (Some 90) None (Some 5)
                                None None None None)] 1%nat
  = Some (Store.OInstance (ESPMinerExtraConfig.mk (Some 90) None (Some 5)
                             None None None None))
  /\ Store.as_espminer_at 1%nat
       [Store.ODict [("hostname", VStr "bitaxe")];
        Store.OInstance (ESPMinerExtraConfig.mk (Some 90) None (Some 5)
                           None None None None)]
     = Some (2%nat,
             [Store.ODict [("hostname", VStr "bitaxe")];
              Store.OInstance (ESPMinerExtraConfig.mk (Some 90) None (Some 5)
                                 None None None None);
              Store.ODict [("rotation", VInt 90); ("displayTimeout", VInt 5)]]).
Proof.
  split; [reflexivity|].
  exact (proj1 (as_espminer_deterministic_read_only
                  [Store.ODict [("hostname", VStr "bitaxe")];
                   Store.OInstance (ESPMinerExtraConfig.mk (Some 90) None (Some 5)
                                      None None None None)]
                  1%nat
                  (ESPMinerExtraConfig.mk (Some 90) None (Some 5) None None None None)
                  eq_refl)).
Defined.

(** C10. A null under a wire key is the same as no key: when [p[k]] is
    [None], [from_espminer p] equals [from_espminer] of [p] without [k],
    and the field of [k] is unset in the result.  Zero is a value, not
    "unset": a key that carries 0 sets its field to 0, and a field that is 0
    is written by [as_espminer]. *)
Theorem null_is_absent_and_zero_is_set (p : dict) (k : string) :
  lookup k p = Some VNone ->
  from_espminer p = from_espminer (without k p)
  /\ (forall x f, from_espminer p = Ok x -> In (f, k) field_mapping ->
        field x f = None)
  /\ (forall q x f a, from_espminer q = Ok x -> In (f, a) field_mapping ->
        lookup a q = Some (VInt 0) -> field x f = Some 0)
  /\ (forall x f a, In (f, a) field_mapping -> field x f = Some 0 ->
        lookup a (as_espminer x) = Some (VInt 0)).
Proof.
  intros Hnull. repeat split.
  - apply from_espminer_ext. intros k' _. symmetry.
    apply get_without_null. exact Hnull.
  - intros x f Hx Hin.
    pose proof (from_espminer_fields p x Hx f k Hin) as Hv.
    apply (validate_set_iff _ _ Hv). unfold get. rewrite Hnull. reflexivity.
  - intros q x f a Hx Hin Hq.
    pose proof (from_espminer_fields q x Hx f a Hin) as Hv.
    unfold get in Hv. rewrite Hq in Hv. simpl in Hv. congruence.
  - intros x f a Hin Hz. rewrite lookup_as_espminer.
    apply field_of_key_In in Hin. rewrite Hin, Hz. reflexivity.
Qed.

Lemma null_is_absent_and_zero_is_set_witness :
  lookup "rotation" [("rotation", VNone); ("invertscreen", VInt 0)] = Some VNone
  /\ from_espminer [("rotation", VNone); ("invertscreen", VInt 0)]
     = from_espminer [("invertscreen", VInt 0)].
Proof.
  split; [reflexivity|].
  exact (proj1 (null_is_absent_and_zero_is_set
                  [("rotation", VNone); ("invertscreen", VInt 0)] "rotation"
                  eq_refl)).
Defined.

(** ** Payloads with arbitrary values *)

(** C3, as stated, fails: a numeric string under a recognized key is
    converted by the field validation, so the pair written back by
    [as_espminer] does not occur in the payload. *)
Lemma sub_mapping_fails_on_numeric_string :
  ~ (forall p x, from_espminer p = Ok x ->
       forall k v, lookup k (as_espminer x) = Some v ->
         lookup k p = Some v /\ v <> VNone /\ In k wire_keys).
Proof.
  intros H.
  destruct (H [("rotation", VStr "90")]
              (ESPMinerExtraConfig.mk (Some 90) None None None None None None)
              eq_refl "rotation" (VInt 90) eq_refl) as [Hp _].
  discriminate Hp.
Qed.

(** C3, amended. For every payload whose values under the seven recognized
    wire keys are integers or null, [from_espminer] returns an Extra-Config
    [x], and [as_espminer x] is the payload restricted to the recognized
    keys with a non-null value: a pair is in the result if and only if its
    key is recognized and the payload has that same pair with a value other
    than [None]. *)
Theorem as_espminer_from_espminer_sub_mapping (p : dict) :
  well_typed p = true ->
  exists x, from_espminer p = Ok x /\
    forall k v, lookup k (as_espminer x) = Some v <->
                (In k wire_keys /\ lookup k p = Some v /\ v <> VNone).
Proof.
  intros Hp. destruct (from_espminer_well_typed p Hp) as (x & Hx & Hget).
  exists x. split; [exact Hx|]. intros k v. rewrite lookup_as_espminer. split.
  - destruct (field_of_key k field_mapping) as [f|] eqn:Hf; [|discriminate].
    apply field_of_key_In in Hf. specialize (Hget f k Hf).
    unfold getattr in Hget.
    destruct (field x f) as [z|]; [|discriminate]. simpl. intros [= <-].
    split; [exact (in_map snd _ _ Hf)|]. split; [|discriminate].
    simpl in Hget. unfold get in Hget.
    destruct (lookup k p); congruence.
  - intros (Hk & Hv & Hnn). unfold wire_keys in Hk.
    apply in_map_iff in Hk. destruct Hk as ([f a] & Ha & Hin). simpl in Ha. subst a.
    specialize (Hget f k Hin). apply field_of_key_In in Hin. rewrite Hin.
    unfold getattr, get in Hget. rewrite Hv in Hget.
    destruct (field x f) as [z|]; simpl in *; congruence.
Qed.

Lemma as_espminer_from_espminer_sub_mapping_witness :
  well_typed [("rotation", VInt 90); ("invertscreen", VNone);
              ("hostname", VStr "bitaxe"); ("displayTimeout", VInt 5)] = true
  /\ exists x,
       from_espminer [("rotation", VInt 90); ("invertscreen", VNone);
                      ("hostname", VStr "bitaxe"); ("displayTimeout", VInt 5)]
       = Ok x
       /\ forall k v, lookup k (as_espminer x) = Some v <->
            (In k wire_keys
             /\ lookup k [("rotation", VInt 90); ("invertscreen", VNone);
                          ("hostname", VStr "bitaxe"); ("displayTimeout", VInt 5)]
                = Some v
             /\ v <> VNone).
Proof.
  split; [reflexivity|].
  apply as_espminer_from_espminer_sub_mapping. reflexivity.
Defined.

(** C4, as stated, fails: a value under one recognized key that the field
    type rejects aborts the construction of the whole Extra-Config, although
    the other fields of the payload are in order. *)
Lemma from_espminer_aborts_on_rejected_field :
  ~ (forall p, exists x, from_espminer p = Ok x /\
       forall f a v, In (f, a) field_mapping -> lookup a p = Some v ->
         getattr x f = v).
Proof.
  intros H.
  destruct (H [("rotation", VInt 90); ("invertscreen", VStr "on")])
    as (x & Hx & _).
  discriminate Hx.
Qed.

(** C4, amended. For every payload whose values under the seven recognized
    wire keys are integers or null, [from_espminer] returns an Extra-Config
    in which each field is the value under its wire key when the key is
    present and is unset ([None], not zero) when the key is absent; a key
    outside the table is ignored whatever its value: writing it into the
    payload changes nothing and raises nothing. *)
Theorem from_espminer_populates_fields (p : dict) :
  well_typed p = true ->
  exists x, from_espminer p = Ok x
    /\ (forall f a v, In (f, a) field_mapping -> lookup a p = Some v ->
          getattr x f = v)
    /\ (forall f a, In (f, a) field_mapping -> lookup a p = None ->
          field x f = None)
    /\ (forall k v, ~ In k wire_keys -> from_espminer (setitem k v p) = Ok x).
Proof.
  intros Hp. destruct (from_espminer_well_typed p Hp) as (x & Hx & Hget).
  exists x. split; [exact Hx|]. repeat split.
  - intros f a v Hin Hv. rewrite (Hget f a Hin). unfold get. rewrite Hv.
    reflexivity.
  - intros f a Hin Hv. specialize (Hget f a Hin).
    unfold getattr, get in Hget. rewrite Hv in Hget.
    destruct (field x f); [discriminate | reflexivity].
  - intros k v Hk. rewrite <- Hx. apply from_espminer_ext.
    intros k' Hk'. apply get_setitem_other. intros ->. contradiction.
Qed.

Lemma from_espminer_populates_fields_witness :
  well_typed [("rotation", VInt 180); ("invertscreen", VInt 0);
              ("hostname", VStr "bitaxe")] = true
  /\ exists x,
       from_espminer [("rotation", VInt 180); ("invertscreen", VInt 0);
                      ("hostname", VStr "bitaxe")] = Ok x
       /\ (forall f a v, In (f, a) field_mapping ->
             lookup a [("rotation", VInt 180); ("invertscreen", VInt 0);
                       ("hostname", VStr "bitaxe")] = Some v ->
             getattr x f = v)
       /\ (forall f a, In (f, a) field_mapping ->
             lookup a [("rotation", VInt 180); ("invertscreen", VInt 0);
                       ("hostname", VStr "bitaxe")] = None ->
             field x f = None)
       /\ (forall k v, ~ In k wire_keys ->
             from_espminer
               (setitem k v [("rotation", VInt 180); ("invertscreen", VInt 0);
                             ("hostname", VStr "bitaxe")]) = Ok x).
Proof.
  split; [reflexivity|].
  apply from_espminer_populates_fields. reflexivity.
Defined.

(** ** The Extra-Config slot of [MinerConfig] *)

Lemma from_espminer_no_extra_fields (p : dict) :
  no_extra_fields p = true -> from_espminer p = Ok empty.
Proof.
  unfold no_extra_fields. simpl. rewrite !andb_true_iff, !negb_true_iff.
  intros (H1 & H2 & H3 & H4 & H5 & H6 & H7 & _).
  unfold from_espminer.
  destruct (get "rotation" p); try discriminate H1.
  destruct (get "invertscreen" p); try discriminate H2.
  destruct (get "displayTimeout" p); try discriminate H3.
  destruct (get "overheat_mode" p); try discriminate H4.
  destruct (get "overclockEnabled" p); try discriminate H5.
  destruct (get "statsFrequency" p); try discriminate H6.
  destruct (get "minFanSpeed" p); try discriminate H7.
  reflexivity.
Qed.

Lemma extra_or_none_cases (x : ESPMinerExtraConfig.t) :
  (MinerConfig.extra_or_none x = None /\ x = empty)
  \/ (MinerConfig.extra_or_none x = Some x /\ x <> empty).
Proof.
  split_fields x; (left; split; reflexivity) || (right; split; [reflexivity | discriminate]).
Qed.

Lemma from_espminer_empty_no_extra_fields (p : dict) :
  from_espminer p = Ok empty -> no_extra_fields p = true.
Proof.
  intros Hp. unfold no_extra_fields. apply forallb_forall. intros k Hk.
  unfold wire_keys in Hk. apply in_map_iff in Hk.
  destruct Hk as ([f a] & Ha & Hin). simpl in Ha. subst a.
  pose proof (from_espminer_fields p empty Hp f k Hin) as Hv.
  assert (Hnone : field empty f = None) by (in_mapping Hin; reflexivity).
  apply (validate_set_iff _ _ Hv) in Hnone. rewrite Hnone. reflexivity.
Qed.

Section MinerConfigClaims.

Variables PoolConfig FanModeConfig : Type.
Variable pools_of : dict -> option PoolConfig.
Variable fan_of : value -> dict -> option FanModeConfig.

(** C6, amended. For every payload whose base fields parse (the pools, and
    the fan mode with its indicator [autofanspeed]) and in which no
    recognized extra-config wire key carries a non-null value,
    [MinerConfig.from_espminer] returns a [MinerConfig] whose
    [extra_config] is [None]: the Extra-Config read from the payload has
    every field unset, and the policy turns it into [None]. *)
Theorem no_extra_fields_extra_config_is_None (p : dict) (pools : PoolConfig)
  (fan : FanModeConfig) :
  MinerConfig.parse_pools pools_of p = Ok pools ->
  MinerConfig.parse_fan_mode fan_of p = Ok fan ->
  no_extra_fields p = true ->
  MinerConfig.from_espminer pools_of fan_of p = Ok (MinerConfig.mk pools fan None)
  /\ ESPMinerExtraConfig.from_espminer p = Ok empty
  /\ MinerConfig.extra_or_none empty = None.
Proof.
  intros Hpools Hfan Hp. pose proof (from_espminer_no_extra_fields p Hp) as Hx.
  split; [|split; [exact Hx | reflexivity]].
  unfold MinerConfig.from_espminer, MinerConfig.build_extra_config.
  rewrite Hpools, Hfan, Hx. reflexivity.
Qed.

(** C7, amended. For every payload whose base fields parse, whose values
    under the recognized wire keys are integers or null, and in which at
    least one recognized key carries a non-null value,
    [MinerConfig.from_espminer] returns a [MinerConfig] whose
    [extra_config] is not [None]: it is the Extra-Config that
    [ESPMinerExtraConfig.from_espminer] returns, in which every field is the
    value under its wire key, and is unset when the key is absent or
    null. *)
Theorem partial_extra_config_is_present (p : dict) (pools : PoolConfig)
  (fan : FanModeConfig) :
  MinerConfig.parse_pools pools_of p = Ok pools ->
  MinerConfig.parse_fan_mode fan_of p = Ok fan ->
  well_typed p = true ->
  no_extra_fields p = false ->
  exists x,
    MinerConfig.from_espminer pools_of fan_of p
    = Ok (MinerConfig.mk pools fan (Some x))
    /\ ESPMinerExtraConfig.from_espminer p = Ok x
    /\ forall f a, In (f, a) field_mapping -> getattr x f = get a p.
Proof.
  intros Hpools Hfan Htyped Hsome.
  destruct (from_espminer_well_typed p Htyped) as (x & Hx & Hget).
  exists x. split; [|split; [exact Hx | exact Hget]].
  unfold MinerConfig.from_espminer, MinerConfig.build_extra_config.
  rewrite Hpools, Hfan, Hx. simpl.
  destruct (extra_or_none_cases x) as [[_ He]|[-> _]]; [|reflexivity].
  subst x. apply from_espminer_empty_no_extra_fields in Hx. congruence.
Qed.

(** C9. Base-field parsing is all-or-nothing: [MinerConfig.from_espminer]
    raises [MalformedPayloadError], and so returns no [MinerConfig] at
    all, exactly when the fan-mode indicator [autofanspeed] is missing
    from the payload or a base field (the pools, the fan mode) has a shape
    that its parser rejects. *)
Theorem base_fields_all_or_nothing (p : dict) :
  (lookup "autofanspeed" p = None
   \/ pools_of p = None
   \/ exists indicator, lookup "autofanspeed" p = Some indicator
                        /\ fan_of indicator p = None)
  <-> MinerConfig.from_espminer pools_of fan_of p = Raise MalformedPayloadError.
Proof.
  unfold MinerConfig.from_espminer,
    MinerConfig.parse_pools, MinerConfig.parse_fan_mode.
  destruct (pools_of p) as [pools|]; simpl; [|tauto].
  destruct (lookup "autofanspeed" p) as [indicator|]; simpl; [|tauto].
  destruct (fan_of indicator p) as [fan|] eqn:Hfan; simpl.
  - split.
    + intros [H|[H|(i & [= <-] & Hi)]]; congruence.
    + discriminate.
  - split; [reflexivity|]. intros _. right. right. eauto.
Qed.

End MinerConfigClaims.

(** C6, as stated, fails: the empty payload has no recognized key with a
    non-null value, but it has no fan-mode indicator either, so
    [MinerConfig.from_espminer] returns no [MinerConfig] for it. *)
Lemma empty_payload_gives_no_config :
  ~ (forall p, no_extra_fields p = true ->
       exists cfg, Scenario.from_espminer p = Ok cfg
                   /\ MinerConfig.extra_config cfg = None).
Proof.
  intros H. destruct (H [] eq_refl) as (cfg & Hcfg & _). discriminate Hcfg.
Qed.

Lemma no_extra_fields_extra_config_is_None_witness :
  MinerConfig.parse_pools Scenario.pools_of Scenario.base = Ok Scenario.base_pools
  /\ MinerConfig.parse_fan_mode Scenario.fan_of Scenario.base = Ok 1
  /\ no_extra_fields Scenario.base = true
  /\ Scenario.from_espminer Scenario.base
     = Ok (MinerConfig.mk Scenario.base_pools 1 None).
Proof.
  split; [reflexivity|]. split; [reflexivity|]. split; [reflexivity|].
  exact (proj1 (no_extra_fields_extra_config_is_None
                  (list Scenario.pool) Z Scenario.pools_of Scenario.fan_of
                  Scenario.base Scenario.base_pools 1
                  eq_refl eq_refl eq_refl)).
Defined.

(** C7, as stated, fails twice.  The payload of the specification's own
    example, two recognized keys and nothing else, has no fan-mode
    indicator, so no [MinerConfig] is returned for it.  And among the
    payloads whose base fields parse, one whose only recognized key
    carries a value that the field rejects gets [extra_config = None],
    although that key carries a non-null value. *)
Lemma partial_extra_config_needs_base_fields :
  ~ (forall p, no_extra_fields p = false ->
       exists cfg x, Scenario.from_espminer p = Ok cfg
                     /\ MinerConfig.extra_config cfg = Some x
                     /\ forall f a, In (f, a) field_mapping ->
                          (field x f = None <-> get a p = VNone))
  /\ ~ (forall p pools fan,
          MinerConfig.parse_pools Scenario.pools_of p = Ok pools ->
          MinerConfig.parse_fan_mode Scenario.fan_of p = Ok fan ->
          no_extra_fields p = false ->
          exists cfg x, Scenario.from_espminer p = Ok cfg
                        /\ MinerConfig.extra_config cfg = Some x
                        /\ forall f a, In (f, a) field_mapping ->
                             (field x f = None <-> get a p = VNone)).
Proof.
  split; intros H.
  - destruct (H [("rotation", VInt 180); ("invertscreen", VInt 0)] eq_refl)
      as (cfg & x & Hcfg & _).
    discriminate Hcfg.
  - destruct (H (Scenario.base ++ [("rotation", VStr "on")])%list
                Scenario.base_pools 1 eq_refl eq_refl eq_refl)
      as (cfg & x & Hcfg & Hextra & _).
    injection Hcfg as <-. discriminate Hextra.
Qed.

Lemma partial_extra_config_is_present_witness :
  MinerConfig.parse_pools Scenario.pools_of
    (Scenario.base ++ [("rotation", VInt 180); ("invertscreen", VInt 0)])%list
  = Ok Scenario.base_pools
  /\ MinerConfig.parse_fan_mode Scenario.fan_of
       (Scenario.base ++ [("rotation", VInt 180); ("invertscreen", VInt 0)])%list
     = Ok 1
  /\ well_typed
       (Scenario.base ++ [("rotation", VInt 180); ("invertscreen", VInt 0)])%list
     = true
  /\ no_extra_fields
       (Scenario.base ++ [("rotation", VInt 180); ("invertscreen", VInt 0)])%list
     = false
  /\ exists x,
       Scenario.from_espminer
         (Scenario.base ++ [("rotation", VInt 180); ("invertscreen", VInt 0)])%list
       = Ok (MinerConfig.mk Scenario.base_pools 1 (Some x))
       /\ ESPMinerExtraConfig.from_espminer
            (Scenario.base ++ [("rotation", VInt 180); ("invertscreen", VInt 0)])%list
          = Ok x
       /\ forall f a, In (f, a) field_mapping ->
            getattr x f
            = get a (Scenario.base
                     ++ [("rotation", VInt 180); ("invertscreen", VInt 0)])%list.
Proof.
  split; [reflexivity|]. split; [reflexivity|]. split; [reflexivity|].
  split; [reflexivity|].
  exact (partial_extra_config_is_present
           (list Scenario.pool) Z Scenario.pools_of Scenario.fan_of
           (Scenario.base ++ [("rotation", VInt 180); ("invertscreen", VInt 0)])%list
           Scenario.base_pools 1 eq_refl eq_refl eq_refl eq_refl).
Defined.

Lemma base_fields_all_or_nothing_witness :
  lookup "autofanspeed" [("rotation", VInt 180); ("invertscreen", VInt 0)] = None
  /\ Scenario.from_espminer [("rotation", VInt 180); ("invertscreen", VInt 0)]
     = Raise MalformedPayloadError.
Proof.
  split; [reflexivity|].
  apply (proj1 (base_fields_all_or_nothing
                  (list Scenario.pool) Z Scenario.pools_of Scenario.fan_of
                  [("rotation", VInt 180); ("invertscreen", VInt 0)])).
  left. reflexivity.
Defined.

(** ** Further properties of [as_espminer] *)

(** X1. [as_espminer] returns the empty dictionary exactly for the instance
    with no field set. *)
Theorem as_espminer_empty_iff (x : ESPMinerExtraConfig.t) :
  as_espminer x = [] <-> x = empty.
Proof.
  split.
  - split_fields x; intros H; try discriminate H; reflexivity.
  - intros ->. reflexivity.
Qed.

(** X2. The dictionary has one item per set field, so never more than
    seven. *)
Theorem as_espminer_length (x : ESPMinerExtraConfig.t) :
  length (as_espminer x) = set_fields x /\ (length (as_espminer x) <= 7)%nat.
Proof.
  split_fields x; split; try reflexivity; simpl; repeat constructor.
Qed.

Lemma field_by_lookup (x : ESPMinerExtraConfig.t) (f a : string) :
  In (f, a) field_mapping ->
  lookup a (as_espminer x) = option_map VInt (field x f).
Proof.
  intros Hin. rewrite lookup_as_espminer.
  apply field_of_key_In in Hin. rewrite Hin. reflexivity.
Qed.

Lemma fields_ext (x y : ESPMinerExtraConfig.t) :
  (forall f a, In (f, a) field_mapping -> field x f = field y f) -> x = y.
Proof.
  intros H.
  pose proof (H "rotation" "rotation") as H1.
  pose proof (H "invertscreen" "invertscreen") as H2.
  pose proof (H "display_timeout" "displayTimeout") as H3.
  pose proof (H "overheat_mode" "overheat_mode") as H4.
  pose proof (H "overclock_enabled" "overclockEnabled") as H5.
  pose proof (H "stats_frequency" "statsFrequency") as H6.
  pose proof (H "min_fan_speed" "minFanSpeed") as H7.
  destruct x, y. simpl in *. f_equal; auto 10.
Qed.

(** X3. [as_espminer] loses nothing: two instances with the same dictionary
    are the same instance. *)
Theorem as_espminer_injective (x y : ESPMinerExtraConfig.t) :
  as_espminer x = as_espminer y -> x = y.
Proof.
  intros H. apply fields_ext. intros f a Hin.
  pose proof (field_by_lookup x f a Hin) as Hx.
  pose proof (field_by_lookup y f a Hin) as Hy.
  rewrite H, Hy in Hx.
  destruct (field x f), (field y f); simpl in Hx; congruence.
Qed.

Lemma as_espminer_injective_witness :
  as_espminer (with_key (with_key empty "displayTimeout" (Some 5)) "rotation" (Some 90))
  = as_espminer (ESPMinerExtraConfig.mk (Some 90) None (Some 5) None None None None)
  /\ with_key (with_key empty "displayTimeout" (Some 5)) "rotation" (Some 90)
     = ESPMinerExtraConfig.mk (Some 90) None (Some 5) None None None None.
Proof.
  split; [reflexivity|].
  apply as_espminer_injective. reflexivity.
Defined.

(** ** Payload updates seen through [from_espminer] *)

Lemma get_setitem (k k' : string) (v : value) (d : dict) :
  get k' (setitem k v d) = if String.eqb k' k then v else get k' d.
Proof.
  unfold get. rewrite lookup_setitem. destruct (String.eqb k' k); reflexivity.
Qed.

Lemma get_without (k k' : string) (d : dict) :
  get k' (without k d) = if String.eqb k' k then VNone else get k' d.
Proof.
  unfold get. rewrite lookup_without. destruct (String.eqb k' k); reflexivity.
Qed.

Lemma well_typed_get (p : dict) (k : string) :
  well_typed p = true -> In k wire_keys -> int_or_none (get k p) = true.
Proof.
  unfold well_typed. intros H Hk.
  exact (proj1 (forallb_forall _ _) H k Hk).
Qed.

Lemma well_typed_setitem (p : dict) (k : string) (v : value) :
  well_typed p = true -> int_or_none v = true ->
  well_typed (setitem k v p) = true.
Proof.
  intros Hp Hv. unfold well_typed. apply forallb_forall. intros k' Hk'.
  rewrite get_setitem. destruct (String.eqb k' k); [exact Hv|].
  exact (well_typed_get p k' Hp Hk').
Qed.

Lemma well_typed_without (p : dict) (k : string) :
  well_typed p = true -> well_typed (without k p) = true.
Proof.
  intros Hp. unfold well_typed. apply forallb_forall. intros k' Hk'.
  rewrite get_without. destruct (String.eqb k' k); [reflexivity|].
  exact (well_typed_get p k' Hp Hk').
Qed.

(** X5. Writing an integer or null under a key of a payload whose
    recognized keys hold integers or null: both payloads are accepted, the
    field of the written key holds the written value afterwards and every
    other field keeps its value; for a key outside the table no field
    changes. *)
Theorem from_espminer_setitem (p : dict) (k : string) (v : value) :
  well_typed p = true ->
  int_or_none v = true ->
  exists x y,
    from_espminer p = Ok x
    /\ from_espminer (setitem k v p) = Ok y
    /\ forall f a, In (f, a) field_mapping ->
         getattr y f = if String.eqb a k then v else getattr x f.
Proof.
  intros Hp Hv.
  destruct (from_espminer_well_typed p Hp) as (x & Hx & Hgx).
  destruct (from_espminer_well_typed _ (well_typed_setitem p k v Hp Hv))
    as (y & Hy & Hgy).
  exists x, y. split; [exact Hx|]. split; [exact Hy|].
  intros f a Hin. rewrite (Hgy f a Hin), get_setitem, (Hgx f a Hin).
  reflexivity.
Qed.

Lemma from_espminer_setitem_witness :
  well_typed [("rotation", VInt 90); ("hostname", VStr "bitaxe")] = true
  /\ int_or_none (VInt 1) = true
  /\ exists x y,
       from_espminer [("rotation", VInt 90); ("hostname", VStr "bitaxe")] = Ok x
       /\ from_espminer
            (setitem "invertscreen" (VInt 1)
               [("rotation", VInt 90); ("hostname", VStr "bitaxe")]) = Ok y
       /\ forall f a, In (f, a) field_mapping ->
            getattr y f
            = if String.eqb a "invertscreen" then VInt 1 else getattr x f.
Proof.
  split; [reflexivity|]. split; [reflexivity|].
  exact (from_espminer_setitem
           [("rotation", VInt 90); ("hostname", VStr "bitaxe")]
           "invertscreen" (VInt 1) eq_refl eq_refl).
Defined.

(** X6. Leaving a key out of a payload whose recognized keys hold integers
    or null, whether the key occurs in the payload or not: the payload
    without the key is accepted as well, the field of that key is unset in
    its result and every other field keeps its value. *)
Theorem from_espminer_without (p : dict) (k : string) :
  well_typed p = true ->
  exists x y,
    from_espminer p = Ok x
    /\ from_espminer (without k p) = Ok y
    /\ forall f a, In (f, a) field_mapping ->
         getattr y f = if String.eqb a k then VNone else getattr x f.
Proof.
  intros Hp.
  destruct (from_espminer_well_typed p Hp) as (x & Hx & Hgx).
  destruct (from_espminer_well_typed _ (well_typed_without p k Hp))
    as (y & Hy & Hgy).
  exists x, y. split; [exact Hx|]. split; [exact Hy|].
  intros f a Hin. rewrite (Hgy f a Hin), get_without, (Hgx f a Hin).
  reflexivity.
Qed.

Lemma from_espminer_without_witness :
  well_typed [("rotation", VInt 90); ("invertscreen", VInt 1)] = true
  /\ exists x y,
       from_espminer [("rotation", VInt 90); ("invertscreen", VInt 1)] = Ok x
       /\ from_espminer
            (without "rotation" [("rotation", VInt 90); ("invertscreen", VInt 1)])
          = Ok y
       /\ forall f a, In (f, a) field_mapping ->
            getattr y f = if String.eqb a "rotation" then VNone else getattr x f.
Proof.
  split; [reflexivity|].
  exact (from_espminer_without
           [("rotation", VInt 90); ("invertscreen", VInt 1)] "rotation" eq_refl).
Defined.

Lemma lookup_not_In_keys (k : string) (d : dict) :
  ~ In k (keys d) -> lookup k d = None.
Proof.
  intros H. destruct (lookup k d) as [v|] eqn:Hv; [|reflexivity].
  exfalso. apply H. apply lookup_In_keys. eauto.
Qed.

Lemma lookup_Permutation (k : string) (p q : dict) :
  Permutation p q -> NoDup (keys p) -> lookup k p = lookup k q.
Proof.
  induction 1 as [|[k0 v0] p q Hpq IH|[k0 v0] [k1 v1] p|p q r Hpq IH1 Hqr IH2];
    intros Hnd.
  - reflexivity.
  - simpl. inversion Hnd; subst. rewrite IH by assumption. reflexivity.
  - simpl. destruct (String.eqb_spec k k1) as [E1|H1];
      destruct (String.eqb_spec k k0) as [E0|H0]; try reflexivity.
    unfold keys in Hnd. simpl in Hnd. inversion Hnd as [|? ? Hnot _]; subst.
    exfalso. apply Hnot. left. congruence.
  - rewrite IH1 by assumption. apply IH2.
    unfold keys in *. eapply Permutation_NoDup; [|exact Hnd].
    apply Permutation_map. exact Hpq.
Qed.

(** X4. The order of the items of the payload does not matter: two
    dictionaries with the same items in different orders give the same
    result, or the same error. *)
Theorem from_espminer_Permutation (p q : dict) :
  NoDup (keys p) -> Permutation p q -> from_espminer p = from_espminer q.
Proof.
  intros Hnd Hpq. apply from_espminer_ext. intros k _. unfold get.
  rewrite (lookup_Permutation k p q Hpq Hnd). reflexivity.
Qed.

Lemma from_espminer_Permutation_witness :
  NoDup (keys [("rotation", VInt 90); ("hostname", VStr "bitaxe");
               ("minFanSpeed", VInt 30)])
  /\ from_espminer [("rotation", VInt 90); ("hostname", VStr "bitaxe");
                    ("minFanSpeed", VInt 30)]
     = from_espminer [("minFanSpeed", VInt 30); ("rotation", VInt 90);
                      ("hostname", VStr "bitaxe")].
Proof.
  assert (Hnd : NoDup (keys [("rotation", VInt 90); ("hostname", VStr "bitaxe");
                             ("minFanSpeed", VInt 30)])).
  { unfold keys. simpl.
    repeat (constructor; [simpl; intuition discriminate|]). constructor. }
  split; [exact Hnd|].
  apply (from_espminer_Permutation _ _ Hnd).
  apply Permutation_sym.
  apply (Permutation_cons_app [("rotation", VInt 90); ("hostname", VStr "bitaxe")] []).
  rewrite app_nil_r. apply Permutation_refl.
Defined.

(** ** The toggle of [test_send_config_with_extra_config] *)

Import BitAxeLocal.

(** X7. Whatever Extra-Config the miner reported, and also when it reported
    none, the configuration prepared by the test carries [invertscreen] on
    the wire with the value 0 or 1, that value differs from the one the
    miner reported, and every other wire key is as it was. *)
Theorem toggle_invertscreen_on_the_wire (extra_config : option ESPMinerExtraConfig.t) :
  let x := ensure_extra_config extra_config in
  let y := toggle_invertscreen x in
  (lookup "invertscreen" (as_espminer y) = Some (VInt 0)
   \/ lookup "invertscreen" (as_espminer y) = Some (VInt 1))
  /\ lookup "invertscreen" (as_espminer y) <> lookup "invertscreen" (as_espminer x)
  /\ (forall k, k <> "invertscreen" ->
        lookup k (as_espminer y) = lookup k (as_espminer x)).
Proof.
  intros x y. subst y. generalize x as c. clear x extra_config. intros c.
  rewrite !(field_by_lookup _ "invertscreen" "invertscreen") by (simpl; tauto).
  split; [|split].
  - destruct c as [r [i|] d oh oc s m]; unfold toggle_invertscreen; simpl;
      [destruct (i =? 1)|]; simpl; tauto.
  - destruct c as [r [i|] d oh oc s m]; unfold toggle_invertscreen; simpl;
      [|discriminate].
    destruct (Z.eqb_spec i 1) as [->|Hi]; simpl; congruence.
  - intros k Hk. rewrite !lookup_as_espminer.
    destruct (field_of_key k field_mapping) as [f|] eqn:Hf; [|reflexivity].
    apply field_of_key_In in Hf. destruct c as [r i d oh oc s m].
    in_mapping Hf; try reflexivity. contradiction Hk. reflexivity.
Qed.

(** X8. Toggling twice gives the instance back exactly when [invertscreen]
    was 0 or 1; from an unset field, or from any other value, two toggles
    end at 0. *)
Theorem toggle_invertscreen_twice (x : ESPMinerExtraConfig.t) :
  (toggle_invertscreen (toggle_invertscreen x) = x
   <-> invertscreen x = Some 0 \/ invertscreen x = Some 1)
  /\ (invertscreen x <> Some 1 ->
      invertscreen (toggle_invertscreen (toggle_invertscreen x)) = Some 0).
Proof.
  destruct x as [r [i|] d oh oc s m]; unfold toggle_invertscreen; simpl.
  - destruct (Z.eqb_spec i 1) as [->|Hi]; simpl.
    + split; [split; [tauto | reflexivity] | congruence].
    + split; [|reflexivity]. split.
      * intros [= <-]. tauto.
      * intros [[= ->]|[= ->]]; [reflexivity | contradiction Hi; reflexivity].
  - split; [|reflexivity]. split; [discriminate | intros [H|H]; discriminate H].
Qed.

Lemma toggle_invertscreen_twice_witness :
  invertscreen (ESPMinerExtraConfig.mk (Some 90) (Some 7) None None None None None)
  <> Some 1
  /\ invertscreen
       (toggle_invertscreen
          (toggle_invertscreen
             (ESPMinerExtraConfig.mk (Some 90) (Some 7) None None None None None)))
     = Some 0.
Proof.
  assert (H : invertscreen
                (ESPMinerExtraConfig.mk (Some 90) (Some 7) None None None None None)
              <> Some 1) by discriminate.
  split; [exact H|].
  exact (proj2 (toggle_invertscreen_twice
                  (ESPMinerExtraConfig.mk (Some 90) (Some 7) None None None None None))
               H).
Defined.

(** ** The summary of [test_espminer_api_fields.main] *)

Import ApiFields.

Lemma results_set_fresh (k : string) (r : bool * string) (results : results_t) :
  ~ In k (map fst results) -> results_set k r results = (results ++ [(k, r)])%list.
Proof.
  induction results as [|[k0 r0] results IH]; simpl; intros H.
  - reflexivity.
  - destruct (String.eqb_spec k k0) as [->|Hk]; [tauto|].
    rewrite IH by tauto. reflexivity.
Qed.

Lemma probe_all_names (Device : Type)
  (test_field : Device -> string -> value -> (bool * string) * Device)
  (fields : dict) (results : results_t) (dev : Device) :
  NoDup (map fst results ++ keys fields) ->
  map fst (fst (probe_all test_field fields results dev))
  = (map fst results ++ keys fields)%list.
Proof.
  revert results dev.
  induction fields as [|[field_name test_value] fields IH]; intros results dev Hnd.
  - simpl. rewrite app_nil_r. reflexivity.
  - simpl. destruct (test_field dev field_name test_value) as [r dev'].
    assert (Hfresh : ~ In field_name (map fst results)).
    { intros Hin. apply NoDup_remove_2 in Hnd. apply Hnd.
      apply in_or_app. left. exact Hin. }
    rewrite (results_set_fresh _ r _ Hfresh), IH.
    + rewrite map_app, <- app_assoc. reflexivity.
    + rewrite map_app, <- app_assoc. exact Hnd.
Qed.

Lemma accepted_rejected_Permutation (results : results_t) :
  Permutation (accepted results ++ rejected results) (map fst results).
Proof.
  unfold accepted, rejected.
  induction results as [|[name [success message]] results IH]; simpl.
  - constructor.
  - destruct success; simpl.
    + constructor. exact IH.
    + apply Permutation_sym, Permutation_cons_app, Permutation_sym. exact IH.
Qed.

Lemma In_accepted (name : string) (results : results_t) :
  In name (accepted results) -> exists message, In (name, (true, message)) results.
Proof.
  unfold accepted. intros H. apply in_map_iff in H.
  destruct H as ([n [success message]] & Hn & Hin). simpl in Hn. subst n.
  apply filter_In in Hin. destruct Hin as [Hin Hs]. simpl in Hs. subst success.
  eauto.
Qed.

Lemma In_rejected (name : string) (results : results_t) :
  In name (rejected results) -> exists message, In (name, (false, message)) results.
Proof.
  unfold rejected. intros H. apply in_map_iff in H.
  destruct H as ([n [success message]] & Hn & Hin). simpl in Hn. subst n.
  apply filter_In in Hin. destruct Hin as [Hin Hs]. simpl in Hs.
  destruct success; [discriminate Hs|]. eauto.
Qed.

Lemma NoDup_fst_functional (A : Type) (l : list (string * A)) (k : string) (a b : A) :
  NoDup (map fst l) -> In (k, a) l -> In (k, b) l -> a = b.
Proof.
  induction l as [|[k0 c] l IH]; simpl; intros Hnd Ha Hb; [contradiction|].
  inversion Hnd as [|? ? Hnot Hnd']; subst.
  destruct Ha as [Ea|Ha], Hb as [Eb|Hb].
  - congruence.
  - injection Ea as -> ->. exfalso. apply Hnot.
    apply (in_map fst) in Hb. exact Hb.
  - injection Eb as -> ->. exfalso. apply Hnot.
    apply (in_map fst) in Ha. exact Ha.
  - exact (IH Hnd' Ha Hb).
Qed.

(** X9. The summary of the probing script is complete and unambiguous: for
    a table of fields with distinct names, whatever the device answers,
    [results] has the probed names in the order of the table, the accepted
    and the rejected names together are the probed names, their numbers add
    up to the number of fields, and no name is listed on both sides. *)
Theorem probe_summary_partitions_fields (Device : Type)
  (test_field : Device -> string -> value -> (bool * string) * Device)
  (fields : dict) (dev : Device) :
  NoDup (keys fields) ->
  let results := fst (probe_all test_field fields [] dev) in
  map fst results = keys fields
  /\ Permutation (accepted results ++ rejected results) (keys fields)
  /\ (length (accepted results) + length (rejected results) = length fields)%nat
  /\ (forall name, In name (accepted results) -> ~ In name (rejected results)).
Proof.
  intros Hnd results.
  assert (Hnames : map fst results = keys fields)
    by exact (probe_all_names Device test_field fields [] dev Hnd).
  split; [exact Hnames|]. split; [|split].
  - rewrite <- Hnames. apply accepted_rejected_Permutation.
  - rewrite <- length_app, (Permutation_length (accepted_rejected_Permutation results)).
    rewrite Hnames. unfold keys. apply length_map.
  - intros name Ha Hr.
    apply In_accepted in Ha. apply In_rejected in Hr.
    destruct Ha as [ma Ha], Hr as [mr Hr].
    assert (Hres : NoDup (map fst results)) by (rewrite Hnames; exact Hnd).
    pose proof (NoDup_fst_functional _ results name _ _ Hres Ha Hr) as E.
    discriminate E.
Qed.

Lemma probe_summary_partitions_fields_witness :
  NoDup (keys test_fields)
  /\ accepted (fst (probe_all counting_device test_fields [] 0%nat))
     = wire_keys
  /\ rejected (fst (probe_all counting_device test_fields [] 0%nat))
     = ["networkDifficulty"]
  /\ Permutation
       (accepted (fst (probe_all counting_device test_fields [] 0%nat))
        ++ rejected (fst (probe_all counting_device test_fields [] 0%nat)))
       (keys test_fields).
Proof.
  assert (Hnd : NoDup (keys test_fields)).
  { unfold keys. simpl.
    repeat (constructor; [simpl; intuition discriminate|]). constructor. }
  split; [exact Hnd|]. split; [reflexivity|]. split; [reflexivity|].
  exact (proj1 (proj2 (probe_summary_partitions_fields
                         nat counting_device test_fields 0%nat Hnd))).
Defined.

(** ** Canonical names and wire keys *)

Lemma keys_as_espminer_wire (x : ESPMinerExtraConfig.t) (k : string) :
  In k (keys (as_espminer x)) -> In k wire_keys.
Proof.
  rewrite lookup_In_keys, lookup_as_espminer. intros [v Hv].
  destruct (field_of_key k field_mapping) as [f|] eqn:Hf; [|discriminate].
  apply field_of_key_In in Hf. exact (in_map snd _ _ Hf).
Qed.

(** X10. A canonical field name that differs from its wire key
    ([display_timeout], [overclock_enabled], [stats_frequency],
    [min_fan_speed]) is not a wire key at all: [as_espminer] never writes
    it, and [from_espminer] ignores an item stored under it. *)
Theorem canonical_name_is_not_a_wire_key (f a : string) :
  In (f, a) field_mapping -> f <> a ->
  (forall x, lookup f (as_espminer x) = None)
  /\ (forall p v, from_espminer (setitem f v p) = from_espminer p).
Proof.
  intros Hin Hne.
  assert (Hf : ~ In f wire_keys).
  { in_mapping Hin; try (contradiction Hne; reflexivity);
      simpl; intuition discriminate. }
  split.
  - intros x. apply lookup_not_In_keys. intros Hk. apply Hf.
    exact (keys_as_espminer_wire x f Hk).
  - intros p v. apply from_espminer_ext. intros k Hk.
    apply get_setitem_other. intros ->. contradiction.
Qed.

Lemma canonical_name_is_not_a_wire_key_witness :
  In ("display_timeout", "displayTimeout") field_mapping
  /\ "display_timeout" <> "displayTimeout"
  /\ from_espminer [("display_timeout", VInt 5)] = Ok empty.
Proof.
  assert (Hin : In ("display_timeout", "displayTimeout") field_mapping)
    by (simpl; tauto).
  assert (Hne : "display_timeout" <> "displayTimeout") by discriminate.
  split; [exact Hin|]. split; [exact Hne|].
  exact (proj2 (canonical_name_is_not_a_wire_key _ _ Hin Hne) [] (VInt 5)).
Defined.
